(** * solarsky-cotizacion: the quotation engine of [server.js]

    A shallow embedding of the JavaScript sources of the quotation service
    (the current [src/server.js] and two other revisions of it) and the
    properties of its field computation, its financial helpers and its
    PDF assembly.

    Numbers. JavaScript numbers are IEEE-754 doubles.  They are embedded
    here as extended rationals: [NaN], the two infinities and exact
    finite values.  The rounding of doubles and the sign of zero are not
    represented: arithmetic is exact.  The inputs at which the code is
    shown to depart from its specification are chosen so that every
    intermediate value is a small integer or decimal, on which exact and
    double arithmetic agree.

    Objects are finite maps from field names to values; the host (number
    rendering for the es-CO locale, the clock), the PDF library, the page
    renderer and the file system are parameters. *)

From Stdlib Require Import QArith Qabs Qround Qreduction Qpower Lqa Lia ZArith.
From Stdlib Require Import Ascii String DecimalString DecimalN.
From stdpp Require Import base option list strings gmap fin_maps.

Local Open Scope Z_scope.

(** ** JavaScript numbers *)

Module JsNum.

Inductive num : Type :=
| NaN
| PInf
| NInf
| Fin (q : Q).

(** Finite values are kept in lowest terms, so that iterating arithmetic
    does not pile up common factors. *)
Definition fin (q : Q) : num := Fin (Qred q).

Definition ofZ (z : Z) : num := Fin (inject_Z z).

(** [a / 10^e] as a number, the value of a decimal literal. *)
Definition dec (a : Z) (e : nat) : num :=
  fin (a # Z.to_pos (10 ^ Z.of_nat e)).

Definition isNaN (x : num) : bool :=
  match x with NaN => true | _ => false end.

Definition isFinite (x : num) : bool :=
  match x with Fin _ => true | _ => false end.

Definition Qsign_nonneg (q : Q) : bool := Z.leb 0 (Qnum q).
Definition Qis_zero (q : Q) : bool := Z.eqb (Qnum q) 0.

Definition neg (x : num) : num :=
  match x with
  | NaN => NaN
  | PInf => NInf
  | NInf => PInf
  | Fin q => fin (- q)
  end.

Definition add (x y : num) : num :=
  match x, y with
  | NaN, _ | _, NaN => NaN
  | PInf, NInf | NInf, PInf => NaN
  | PInf, _ | _, PInf => PInf
  | NInf, _ | _, NInf => NInf
  | Fin a, Fin b => fin (a + b)
  end.

Definition sub (x y : num) : num := add x (neg y).

(** The infinity carrying the sign of [q]; zero times infinity is [NaN]. *)
Definition inf_signed (positive : bool) (q : Q) : num :=
  if Qis_zero q then NaN
  else if Bool.eqb positive (Qsign_nonneg q) then PInf else NInf.

Definition mul (x y : num) : num :=
  match x, y with
  | NaN, _ | _, NaN => NaN
  | PInf, PInf | NInf, NInf => PInf
  | PInf, NInf | NInf, PInf => NInf
  | PInf, Fin q | Fin q, PInf => inf_signed true q
  | NInf, Fin q | Fin q, NInf => inf_signed false q
  | Fin a, Fin b => fin (a * b)
  end.

(** Division.  A zero divisor is taken as [+0]: a non-zero dividend gives
    the infinity of its own sign, and [0/0] is [NaN]. *)
Definition div (x y : num) : num :=
  match x, y with
  | NaN, _ | _, NaN => NaN
  | Fin a, Fin b =>
      if Qis_zero b then inf_signed true a else fin (a / b)
  | Fin _, (PInf | NInf) => Fin 0
  | (PInf | NInf), (PInf | NInf) => NaN
  | PInf, Fin b => if Qsign_nonneg b then PInf else NInf
  | NInf, Fin b => if Qsign_nonneg b then NInf else PInf
  end.

(** [Math.abs]. *)
Definition abs (x : num) : num :=
  match x with
  | NaN => NaN
  | PInf | NInf => PInf
  | Fin q => fin (Qabs q)
  end.

(** [Math.pow] at a non-negative integer exponent, the only use in the
    sources.  [Math.pow(x, 0)] is [1] for every [x], [NaN] included. *)
Definition pow (x : num) (n : nat) : num :=
  match n with
  | O => Fin 1
  | S _ =>
      match x with
      | NaN => NaN
      | PInf => PInf
      | NInf => if Nat.even n then PInf else NInf
      | Fin q => Fin (Qpower q (Z.of_nat n))
      end
  end.

(** Comparisons [<], [<=], [>], [>=]: all false when a side is [NaN]. *)
Definition lt (x y : num) : bool :=
  match x, y with
  | NaN, _ | _, NaN => false
  | _, NInf => false
  | NInf, _ => true
  | PInf, _ => false
  | _, PInf => true
  | Fin a, Fin b => negb (Qle_bool b a)
  end.

Definition le (x y : num) : bool :=
  match x, y with
  | NaN, _ | _, NaN => false
  | NInf, _ => true
  | _, NInf => false
  | _, PInf => true
  | PInf, _ => false
  | Fin a, Fin b => Qle_bool a b
  end.

Definition gt (x y : num) : bool := lt y x.
Definition ge (x y : num) : bool := le y x.

(** Strict equality [===] on numbers. *)
Definition eqb (x y : num) : bool :=
  match x, y with
  | PInf, PInf | NInf, NInf => true
  | Fin a, Fin b => Qeq_bool a b
  | _, _ => false
  end.

(** [Math.max] and [Math.min] of two arguments: [NaN] if either is. *)
Definition max (x y : num) : num :=
  match x, y with
  | NaN, _ | _, NaN => NaN
  | _, _ => if lt x y then y else x
  end.

Definition min (x y : num) : num :=
  match x, y with
  | NaN, _ | _, NaN => NaN
  | _, _ => if lt y x then y else x
  end.

(** [Math.floor], [Math.ceil] and [Math.round] (round half up). *)
Definition floor (x : num) : num :=
  match x with Fin q => ofZ (Qfloor q) | _ => x end.

Definition ceil (x : num) : num :=
  match x with Fin q => ofZ (Qceiling q) | _ => x end.

Definition round (x : num) : num :=
  match x with Fin q => ofZ (Qfloor (q + (1 # 2))) | _ => x end.

End JsNum.

Export JsNum.

(** ** Strings and number conversions *)

Module JsString.

Local Open Scope string_scope.

Definition is_digit (c : ascii) : bool :=
  let n := nat_of_ascii c in (48 <=? n)%nat && (n <=? 57)%nat.

Definition digit_value (c : ascii) : Z := Z.of_nat (nat_of_ascii c) - 48.

(** The character class [[0-9.-]] of the clean-up expression. *)
Definition is_numeric_char (c : ascii) : bool :=
  is_digit c || Ascii.eqb c "." || Ascii.eqb c "-".

Fixpoint filter_chars (keep : ascii -> bool) (s : string) : string :=
  match s with
  | EmptyString => EmptyString
  | String c rest =>
      if keep c then String c (filter_chars keep rest)
      else filter_chars keep rest
  end.

(** [s.replace(/[^0-9.-]/g, '')] *)
Definition strip_non_numeric (s : string) : string :=
  filter_chars is_numeric_char s.

Fixpoint all_chars (p : ascii -> bool) (s : string) : bool :=
  match s with
  | EmptyString => true
  | String c rest => p c && all_chars p rest
  end.

(** Value of a run of digits read after [acc]; [None] on a non-digit. *)
Fixpoint read_digits (acc : Z) (s : string) : option Z :=
  match s with
  | EmptyString => Some acc
  | String c rest =>
      if is_digit c then read_digits (10 * acc + digit_value c) rest
      else None
  end.

(** Splits at the first dot: the part before it and, when there is a dot,
    the part after it. *)
Fixpoint split_dot (s : string) : string * option string :=
  match s with
  | EmptyString => (EmptyString, None)
  | String c rest =>
      if Ascii.eqb c "." then (EmptyString, Some rest)
      else let '(a, b) := split_dot rest in (String c a, b)
  end.

(** An unsigned decimal literal: digits, optionally a dot and digits, at
    least one digit in all. *)
Definition parse_unsigned (s : string) : num :=
  let '(ip, fp) := split_dot s in
  let fp' := match fp with Some f => f | None => EmptyString end in
  match read_digits 0 ip, read_digits 0 fp' with
  | Some i, Some f =>
      if (String.length ip + String.length fp' =? 0)%nat then NaN
      else
        let k := String.length fp' in
        dec (i * 10 ^ Z.of_nat k + f) k
  | _, _ => NaN
  end.

(** [Number(s)] for the strings the sources hand to it, which after the
    clean-up hold digits, dots and minus signs only: the empty string is
    [0], an optional leading minus and a decimal literal give its value,
    anything else is [NaN].  Exponents, hexadecimal literals, [Infinity]
    and white space, which cannot survive the clean-up, are not read. *)
Definition Number (s : string) : num :=
  match s with
  | EmptyString => Fin 0
  | String c rest =>
      if Ascii.eqb c "-" then neg (parse_unsigned rest)
      else parse_unsigned s
  end.

Definition string_of_nonneg (z : Z) : string :=
  NilZero.string_of_uint (N.to_uint (Z.to_N z)).

(** The first [n] decimals of [r / d] for [0 <= r < d], stopping when the
    remainder vanishes. *)
Fixpoint frac_digits (n : nat) (r d : Z) : string :=
  match n with
  | O => EmptyString
  | S n' =>
      if (r =? 0)%Z then EmptyString
      else
        let r10 := 10 * r in
        append (string_of_nonneg (r10 / d)) (frac_digits n' (r10 mod d) d)
  end.

(** Plain decimal notation of a non-negative rational.  A value with a finite
    decimal expansion is printed exactly; any other is cut off. *)
Definition decimal_of_nonneg (q : Q) : string :=
  let n := Qnum q in
  let d := Z.pos (Qden q) in
  let ip := string_of_nonneg (n / d) in
  let fp := frac_digits (Pos.size_nat (Qden q)) (n mod d) d in
  match fp with
  | EmptyString => ip
  | _ => append ip (append "." fp)
  end.

(** [Number.prototype.toString()] / [String(n)] in plain decimal notation
    (JavaScript switches to exponent notation from [1e21] up and below
    [1e-6], beyond the amounts handled here). *)
Definition numToString (x : num) : string :=
  match x with
  | NaN => "NaN"
  | PInf => "Infinity"
  | NInf => "-Infinity"
  | Fin q =>
      let q := Qred q in
      if Qsign_nonneg q then decimal_of_nonneg q
      else append "-" (decimal_of_nonneg (Qopp q))
  end.

Fixpoint pad_zeros (n : nat) (s : string) : string :=
  match n with
  | O => s
  | S n' => String "0" (pad_zeros n' s)
  end.

(** Puts a dot before the last [d] characters of a digit string of more
    than [d] characters. *)
Definition insert_dot (d : nat) (s : string) : string :=
  match d with
  | O => s
  | _ =>
      let k := (String.length s - d)%nat in
      append (substring 0 k s) (append "." (substring k d s))
  end.

(** [x.toFixed(d)]: the integer [n] nearest to [|x| * 10^d], the larger
    one on a tie, printed with [d] decimals behind the sign of [x] (below
    [1e21], where JavaScript does not yet switch to [toString]). *)
Definition toFixed (x : num) (d : nat) : string :=
  match x with
  | Fin q =>
      let n := Qfloor (Qabs q * inject_Z (10 ^ Z.of_nat d) + (1 # 2)) in
      let ds := string_of_nonneg n in
      let ds := pad_zeros (S d - String.length ds) ds in
      let body := insert_dot d ds in
      if Qsign_nonneg q then body else append "-" body
  | _ => numToString x
  end.

End JsString.

Export JsString.

(** ** Values and objects *)

Module JsValue.

Local Open Scope string_scope.

(** The values a parsed JSON body can hold, and [undefined] for the read of
    a property that is not there. *)
#[local] Unset Elimination Schemes.
Inductive value : Type :=
| VUndef
| VNull
| VBool (b : bool)
| VNum (n : num)
| VStr (s : string)
| VArr (items : list value)
| VObj (fields : list (string * value)).
#[local] Set Elimination Schemes.

(** A plain object used as a dictionary from field names to values. *)
Abbreviation obj := (gmap string value).

(** [o.k] *)
Definition get (o : obj) (k : string) : value := default VUndef (o !! k).

(** ['k' in o] *)
Definition has (k : string) (o : obj) : bool := bool_decide (is_Some (o !! k)).

(** [!v] *)
Definition falsy (v : value) : bool :=
  match v with
  | VUndef | VNull => true
  | VBool b => negb b
  | VNum n => isNaN n || JsNum.eqb n (Fin 0)
  | VStr s => match s with EmptyString => true | _ => false end
  | VArr _ | VObj _ => false
  end.

(** [v === ''] *)
Definition is_empty_string (v : value) : bool :=
  match v with VStr EmptyString => true | _ => false end.

(** [String(v)].  An array prints its items separated by commas, with
    nothing for [null] and [undefined]; an object prints as
    ["[object Object]"]. *)
Fixpoint String_of (v : value) : string :=
  match v with
  | VUndef => "undefined"
  | VNull => "null"
  | VBool true => "true"
  | VBool false => "false"
  | VNum n => numToString n
  | VStr s => s
  | VArr items =>
      let item (x : value) : string :=
        match x with VUndef | VNull => "" | _ => String_of x end in
      (fix join (l : list value) : string :=
         match l with
         | [] => ""
         | [x] => item x
         | x :: rest => append (item x) (append "," (join rest))
         end) items
  | VObj _ => "[object Object]"
  end.

(** What the host supplies: the es-CO rendering of a number
    ([n.toLocaleString('es-CO')]), and the clock, read as the es-CO date in
    the Bogota time zone and as local day, month (from 0) and year. *)
Record Runtime : Type := {
  toLocaleString : num -> string;
  toLocaleDateString : string;
  getDate : nat;
  getMonth : nat;
  getFullYear : nat
}.

End JsValue.

Export JsValue.

(** ** Financial helpers ([toNum], [npv], [irr], [paybackYears], [formatCO]) *)

Module Helpers.

Local Open Scope string_scope.

(** [toNum] of the financial revision, [num] of [server.js]: the same body. *)
Definition toNum (v : value) : num :=
  match v with
  | VUndef | VNull | VStr EmptyString => NaN
  | _ =>
      let n := Number (strip_non_numeric (String_of v)) in
      if isNaN n then NaN else n
  end.

(** [formatCO] of the financial revision, [formatNum] of [server.js]. *)
Definition formatCO (rt : Runtime) (v : value) : string :=
  let n := toNum v in
  if isNaN n then "" else toLocaleString rt n.

(** [arr.reduce((acc, x, t) => f(acc, x, t), init)] *)
Fixpoint reduce_from {A B : Type} (f : B -> A -> nat -> B)
    (t : nat) (l : list A) (acc : B) : B :=
  match l with
  | [] => acc
  | x :: rest => reduce_from f (S t) rest (f acc x t)
  end.

Definition reduce {A B : Type} (f : B -> A -> nat -> B) (l : list A) (init : B) : B :=
  reduce_from f 0 l init.

Definition ofNat (n : nat) : num := ofZ (Z.of_nat n).

Definition npv (rate : num) (flows : list num) : num :=
  reduce (fun acc cf t => add acc (div cf (pow (add (ofZ 1) rate) t))) flows (ofZ 0).

(** The derivative of [npv] in the rate, local to [irr] in the source. *)
Definition dNPV (flows : list num) (r : num) : num :=
  reduce (fun acc cf t =>
            match t with
            | O => acc
            | _ => sub acc (div (mul (ofNat t) cf) (pow (add (ofZ 1) r) (t + 1)))
            end) flows (ofZ 0).

Definition maxIter : nat := 100.
Definition tol : num := dec 1 7.

(** The Newton-Raphson loop of [irr], [n] iterations left: [Some r] when it
    returns [r], [None] when it leaves the loop by [break] or by running
    out of iterations. *)
Fixpoint newton (flows : list num) (n : nat) (r : num) : option num :=
  match n with
  | O => None
  | S n' =>
      let f := npv r flows in
      let df := dNPV flows r in
      if lt (abs df) (dec 1 12) then None
      else
        let rNext := sub r (div f df) in
        if negb (isFinite rNext) then None
        else if lt (abs (sub rNext r)) tol then Some rNext
        else newton flows n' rNext
  end.

(** The bisection loop of [irr], [n] iterations left. *)
Fixpoint bisect (flows : list num) (n : nat) (low high fLow fHigh : num) : num :=
  match n with
  | O => NaN
  | S n' =>
      let mid := div (add low high) (ofZ 2) in
      let fMid := npv mid flows in
      if lt (abs fMid) tol then mid
      else if lt (mul fLow fMid) (ofZ 0)
           then bisect flows n' low mid fLow fMid
           else bisect flows n' mid high fMid fHigh
  end.

Definition irr (flows : list num) (guess : num) : num :=
  match newton flows maxIter guess with
  | Some r => r
  | None =>
      let low := dec (-9) 1 in
      let high := ofZ 5 in
      let fLow := npv low flows in
      let fHigh := npv high flows in
      if gt (mul fLow fHigh) (ofZ 0) then NaN
      else bisect flows 200 low high fLow fHigh
  end.

(** The default of [irr]'s second parameter. *)
Definition default_guess : num := dec 1 1.

(** The loop of [paybackYears] from index [t] on, [cum] being the sum of
    the flows before [t]. *)
Fixpoint payback_from (t : nat) (cum : num) (flows : list num) : num :=
  match flows with
  | [] => NaN
  | ft :: rest =>
      let cum := add cum ft in
      if ge cum (ofZ 0) then
        let prevCum := sub cum ft in
        let frac :=
          if negb (JsNum.eqb ft (ofZ 0)) then div (sub (ofZ 0) prevCum) ft
          else ofZ 0 in
        add (sub (ofNat t) (ofZ 1)) (max (ofZ 0) (min (ofZ 1) frac))
      else payback_from (S t) cum rest
  end.

Definition paybackYears (flows : list num) : num :=
  payback_from 0 (ofZ 0) flows.

End Helpers.

Export Helpers.

(** ** The statements shared by the revisions of [computeFields]

    Every revision copies its input ([const out = { ...input }]) and then
    runs a sequence of assignments on [out].  The sizing rules are the same
    text in all of them. *)

Module Steps.

Local Open Scope string_scope.

(** [if (!('k' in out)) out.k = v;] *)
Definition set_if_absent (k : string) (v : value) (out : obj) : obj :=
  if negb (has k out) then <[k := v]> out else out.

(** [out.k = formatCO(out.k);] *)
Definition reformat (rt : Runtime) (k : string) (out : obj) : obj :=
  <[k := VStr (formatCO rt (get out k))]> out.

(** [if (!out.FECHA) out.FECHA = new Date().toLocaleDateString('es-CO', options);] *)
Definition set_FECHA (rt : Runtime) (out : obj) : obj :=
  if falsy (get out "FECHA")
  then <["FECHA" := VStr (toLocaleDateString rt)]> out
  else out.

(** [isNaN(x) ? '' : String(x)] *)
Definition blank_or_string (x : num) : string :=
  if isNaN x then "" else numToString x.

(** The right-hand side of [out.POTENCIA]. *)
Definition POTENCIA_text (ENERGIA : num) : string :=
  let pot :=
    if isNaN ENERGIA then NaN
    else div (mul ENERGIA (dec 12 1)) (mul (mul (dec 42 1) (ofZ 30)) (dec 81 2)) in
  if isNaN pot then ""
  else numToString (div (round (mul pot (ofZ 100))) (ofZ 100)).

(** The right-hand side of [out.PANELES]. *)
Definition PANELES_text (POTENCIA : num) : string :=
  let p :=
    if isNaN POTENCIA then NaN
    else ceil (div (mul POTENCIA (ofZ 1000)) (ofZ 645)) in
  blank_or_string p.

(** The right-hand side of [out.INVERSORES]. *)
Definition INVERSORES_text (POTENCIA : num) : string :=
  let inv := if isNaN POTENCIA then NaN else ceil (div POTENCIA (dec 125 2)) in
  blank_or_string inv.

(** The right-hand side of [out.INVERSION_TOTAL]. *)
Definition INVERSION_TOTAL_text (POTENCIA : num) : string :=
  let invTot := if isNaN POTENCIA then NaN else mul POTENCIA (ofZ 3550000) in
  if isNaN invTot then "" else numToString (round invTot).

(** The right-hand side of [out.BENEFICIO_TRIBUTARIO]. *)
Definition BENEFICIO_TRIBUTARIO_text (INVERSION_TOTAL : num) : string :=
  let ben := if isNaN INVERSION_TOTAL then NaN else div INVERSION_TOTAL (ofZ 2) in
  if isNaN ben then "" else numToString (round ben).

(** The fixed figures of [server.js] and of the plain revision. *)
Definition fixed_TIR : string :=
  let tir := div (dec 19 2) (ofZ 3) in
  append (toFixed (mul tir (ofZ 100)) 2) "%".

Definition fixed_BC : string := numToString (div (ofZ 5) (ofZ 2)).

Definition fixed_AHORRO_TOTAL : string :=
  let ah := div (ofZ 250000000) (ofZ 3) in
  numToString (round ah).

Definition fixed_RECUPERACION_INVERSION : string :=
  numToString (div (ofZ 6) (ofZ 2)).

(** [if (!('k' in out) || out.k === '') out.k = String(Math.round(INVERSION_TOTAL * share));] *)
Definition set_PAGO (k : string) (INVERSION_TOTAL share : num) (out : obj) : obj :=
  if negb (has k out) || is_empty_string (get out k)
  then <[k := VStr (numToString (round (mul INVERSION_TOTAL share)))]> out
  else out.

(** The closing block of thousands formatting, in source order. *)
Definition format_block (rt : Runtime) (out : obj) : obj :=
  let out := reformat rt "INVERSION_TOTAL" out in
  let out := reformat rt "BENEFICIO_TRIBUTARIO" out in
  let out := reformat rt "AHORRO_TOTAL" out in
  let out := reformat rt "FACTURA" out in
  let out := reformat rt "ENERGIA" out in
  let out := reformat rt "PAGO1" out in
  let out := reformat rt "PAGO2" out in
  let out := reformat rt "PAGO3" out in
  let out := reformat rt "PAGO4" out in
  reformat rt "IVA_MATERIALES" out.

(** The fields rewritten by the formatting block. *)
Definition formatted_fields : list string :=
  ["INVERSION_TOTAL"; "BENEFICIO_TRIBUTARIO"; "AHORRO_TOTAL"; "FACTURA";
   "ENERGIA"; "PAGO1"; "PAGO2"; "PAGO3"; "PAGO4"; "IVA_MATERIALES"].



End Steps.

Export Steps.

(** ** [computeFields] of [src/server.js] *)

Module Server.

Local Open Scope string_scope.

Definition computeFields (rt : Runtime) (input : obj) : obj :=
  let out := input in (* const out = { ...input } *)
  let out := set_FECHA rt out in
  let ENERGIA := toNum (get out "ENERGIA") in
  let FACTURA := toNum (get out "FACTURA") in
  let out := set_if_absent "POTENCIA" (VStr (POTENCIA_text ENERGIA)) out in
  let POTENCIA := toNum (get out "POTENCIA") in
  let out := set_if_absent "PANELES" (VStr (PANELES_text POTENCIA)) out in
  let out := set_if_absent "INVERSORES" (VStr (INVERSORES_text POTENCIA)) out in
  let out := set_if_absent "INVERSION_TOTAL" (VStr (INVERSION_TOTAL_text POTENCIA)) out in
  let INVERSION_TOTAL := toNum (get out "INVERSION_TOTAL") in
  let out := set_if_absent "BENEFICIO_TRIBUTARIO"
               (VStr (BENEFICIO_TRIBUTARIO_text INVERSION_TOTAL)) out in
  let out := set_if_absent "TIR" (VStr fixed_TIR) out in
  let out := set_if_absent "BC" (VStr fixed_BC) out in
  let out := set_if_absent "AHORRO_TOTAL" (VStr fixed_AHORRO_TOTAL) out in
  let out := set_if_absent "RECUPERACION_INVERSION"
               (VStr fixed_RECUPERACION_INVERSION) out in
  let out :=
    if negb (isNaN INVERSION_TOTAL) then
      let out := set_PAGO "PAGO1" INVERSION_TOTAL (dec 30 2) out in
      let out := set_PAGO "PAGO2" INVERSION_TOTAL (dec 20 2) out in
      let out := set_PAGO "PAGO3" INVERSION_TOTAL (dec 40 2) out in
      set_PAGO "PAGO4" INVERSION_TOTAL (dec 10 2) out
    else out in
  let out := set_if_absent "ENERGIA" (VStr (blank_or_string ENERGIA)) out in
  let out := set_if_absent "FACTURA" (VStr (blank_or_string FACTURA)) out in
  format_block rt out.

End Server.

(** ** [computeFields] of the plain revision (fixed figures, no formatting
    block; [src/unnamed/part_002]) *)

Module Basic.

Local Open Scope string_scope.

(** [String(n).padStart(2, '0')] *)
Definition pad2 (n : nat) : string :=
  let s := string_of_nonneg (Z.of_nat n) in
  pad_zeros (2 - String.length s) s.

(** [`${dd}/${mm}/${yyyy}`] from the local clock. *)
Definition date_dmy (rt : Runtime) : string :=
  append (pad2 (getDate rt))
    (append "/" (append (pad2 (getMonth rt + 1))
       (append "/" (string_of_nonneg (Z.of_nat (getFullYear rt)))))).

Definition computeFields (rt : Runtime) (input : obj) : obj :=
  let out := input in (* const out = { ...input } *)
  let out :=
    if falsy (get out "FECHA") then <["FECHA" := VStr (date_dmy rt)]> out
    else out in
  let ENERGIA := toNum (get out "ENERGIA") in
  let FACTURA := toNum (get out "FACTURA") in
  let out := set_if_absent "POTENCIA" (VStr (POTENCIA_text ENERGIA)) out in
  let POTENCIA := toNum (get out "POTENCIA") in
  let out := set_if_absent "PANELES" (VStr (PANELES_text POTENCIA)) out in
  let out := set_if_absent "INVERSORES" (VStr (INVERSORES_text POTENCIA)) out in
  let out := set_if_absent "INVERSION_TOTAL" (VStr (INVERSION_TOTAL_text POTENCIA)) out in
  let INVERSION_TOTAL := toNum (get out "INVERSION_TOTAL") in
  let out := set_if_absent "BENEFICIO_TRIBUTARIO"
               (VStr (BENEFICIO_TRIBUTARIO_text INVERSION_TOTAL)) out in
  let out := set_if_absent "TIR" (VStr fixed_TIR) out in
  let out := set_if_absent "BC" (VStr fixed_BC) out in
  let out := set_if_absent "AHORRO_TOTAL" (VStr fixed_AHORRO_TOTAL) out in
  let out := set_if_absent "RECUPERACION_INVERSION"
               (VStr fixed_RECUPERACION_INVERSION) out in
  let out :=
    if negb (has "ENERGIA" out) && negb (isNaN ENERGIA)
    then <["ENERGIA" := VStr (numToString ENERGIA)]> out else out in
  let out :=
    if negb (has "FACTURA" out) && negb (isNaN FACTURA)
    then <["FACTURA" := VStr (numToString FACTURA)]> out else out in
  out.

End Basic.

(** ** [computeFields] of the financial revision (cash flows, IRR, payback;
    [src/unnamed/part_001]) *)

Module Financial.

Local Open Scope string_scope.

(** The block of editable constants at the top of [computeFields]. *)
Record Config : Type := {
  YEARS : nat;
  DISCOUNT : num;
  SAVINGS_RATE : num;
  O_M_RATE : num;
  DEGRAD : num;
  VAT : num;
  MATERIALES_SHARE : num;
  TAX_BENEFIT_MODE : string
}.

Definition constants : Config := {|
  YEARS := 25;
  DISCOUNT := dec 12 2;
  SAVINGS_RATE := dec 80 2;
  O_M_RATE := dec 1 2;
  DEGRAD := dec 5 3;
  VAT := dec 19 2;
  MATERIALES_SHARE := dec 60 2;
  TAX_BENEFIT_MODE := "YEAR1"
|}.

Section WithConfig.

Variable cfg : Config.

(** [ahMes * 12] of year [y]; [guard] is the source's replacement of a
    [NaN] monthly saving by [0], present in the flow loops and absent in
    the loop of [AHORRO_TOTAL], which runs under its own test. *)
Definition ahorroAnual (guard : bool) (ahorroMensual0 : num) (y : nat) : num :=
  let ahMes :=
    if guard && isNaN ahorroMensual0 then ofZ 0
    else mul ahorroMensual0 (pow (sub (ofZ 1) (DEGRAD cfg)) (y - 1)) in
  mul ahMes (ofZ 12).

(** [oym] *)
Definition oym (INVERSION_TOTAL : num) : num :=
  if isNaN INVERSION_TOTAL then ofZ 0 else mul INVERSION_TOTAL (O_M_RATE cfg).

(** [benY] of year [y]: the two [if]s in source order. *)
Definition benY (BENEFICIO_TRIBUTARIO : num) (y : nat) : num :=
  let b0 := ofZ 0 in
  if negb (isNaN BENEFICIO_TRIBUTARIO) then
    let b1 :=
      if String.eqb (TAX_BENEFIT_MODE cfg) "YEAR1" && (y =? 1)%nat
      then BENEFICIO_TRIBUTARIO else b0 in
    if String.eqb (TAX_BENEFIT_MODE cfg) "DISTRIB_5Y" && (y <=? 5)%nat
    then div BENEFICIO_TRIBUTARIO (ofZ 5) else b1
  else b0.

(** [cf] of year [y]. *)
Definition yearFlow (INVERSION_TOTAL ahorroMensual0 BENEFICIO_TRIBUTARIO : num)
    (y : nat) : num :=
  add (sub (ahorroAnual true ahorroMensual0 y) (oym INVERSION_TOTAL))
      (benY BENEFICIO_TRIBUTARIO y).

(** The construction of [flows]: the entry of [t = 0], then one entry per
    year [1..YEARS]. *)
Definition buildFlows (INVERSION_TOTAL ahorroMensual0 BENEFICIO_TRIBUTARIO : num)
    : list num :=
  (if isNaN INVERSION_TOTAL then NaN else neg INVERSION_TOTAL)
  :: map (yearFlow INVERSION_TOTAL ahorroMensual0 BENEFICIO_TRIBUTARIO)
         (seq 1 (YEARS cfg)).

(** The right-hand side of [out.AHORRO_TOTAL]. *)
Definition AHORRO_TOTAL_text (ahorroMensual0 : num) : string :=
  let sumaAhorros :=
    if negb (isNaN ahorroMensual0) then
      fold_left (fun suma y => add suma (ahorroAnual false ahorroMensual0 y))
                (seq 1 (YEARS cfg)) (ofZ 0)
    else ofZ 0 in
  numToString (round sumaAhorros).

(** The body of [computeBC]: the text written to [out.BC]. *)
Definition BC_text (INVERSION_TOTAL ahorroMensual0 BENEFICIO_TRIBUTARIO : num) : string :=
  let benFlows :=
    ofZ 0 :: map (fun y => add (ahorroAnual true ahorroMensual0 y)
                               (benY BENEFICIO_TRIBUTARIO y))
                 (seq 1 (YEARS cfg)) in
  let costFlows :=
    (if isNaN INVERSION_TOTAL then ofZ 0 else INVERSION_TOTAL)
    :: map (fun _ => oym INVERSION_TOTAL) (seq 1 (YEARS cfg)) in
  let pvBen := npv (DISCOUNT cfg) benFlows in
  let pvCost := npv (DISCOUNT cfg) costFlows in
  let bc := if gt pvCost (ofZ 0) then div pvBen pvCost else NaN in
  if isFinite bc then toFixed bc 2 else "".

(** [isFinite(tir) ? (tir * 100).toFixed(2) + '%' : ''] *)
Definition TIR_text (flows : list num) : string :=
  let tir := irr flows default_guess in
  if isFinite tir then append (toFixed (mul tir (ofZ 100)) 2) "%" else "".

(** [isFinite(pb) ? pb.toFixed(1) : ''] *)
Definition RECUPERACION_INVERSION_text (flows : list num) : string :=
  let pb := paybackYears flows in
  if isFinite pb then toFixed pb 1 else "".

(** [flows[0]]; a read past the end gives [undefined], [NaN] in arithmetic. *)
Definition flow0 (flows : list num) : num := nth 0 flows NaN.

Definition ROI_text (INVERSION_TOTAL : num) (flows : list num) : string :=
  let totalIn := fold_left add (tl flows) (ofZ 0) in
  let roi :=
    if isNaN INVERSION_TOTAL then NaN
    else div (add totalIn (flow0 flows)) (abs (flow0 flows)) in
  if isFinite roi then append (toFixed (mul roi (ofZ 100)) 1) "%" else "".

(** [computeFields], returning with [out] the local [flows] it builds. *)
Definition computeFields_run (rt : Runtime) (input : obj) : obj * list num :=
  let out := input in (* const out = { ...input } *)
  let out := set_FECHA rt out in
  let ENERGIA := toNum (get out "ENERGIA") in
  let FACTURA := toNum (get out "FACTURA") in
  let out := set_if_absent "POTENCIA" (VStr (POTENCIA_text ENERGIA)) out in
  let POTENCIA := toNum (get out "POTENCIA") in
  let out := set_if_absent "PANELES" (VStr (PANELES_text POTENCIA)) out in
  let out := set_if_absent "INVERSORES" (VStr (INVERSORES_text POTENCIA)) out in
  let out := set_if_absent "INVERSION_TOTAL" (VStr (INVERSION_TOTAL_text POTENCIA)) out in
  let INVERSION_TOTAL := toNum (get out "INVERSION_TOTAL") in
  let MATERIALES_BASE :=
    if has "MATERIALES_BASE" out then toNum (get out "MATERIALES_BASE")
    else if isNaN INVERSION_TOTAL then NaN
         else mul INVERSION_TOTAL (MATERIALES_SHARE cfg) in
  let IVA_MATERIALES :=
    if isNaN MATERIALES_BASE then NaN else mul MATERIALES_BASE (VAT cfg) in
  let out := <["IVA_MATERIALES" := VStr (formatCO rt (VNum IVA_MATERIALES))]> out in
  let out := set_if_absent "BENEFICIO_TRIBUTARIO"
               (VStr (BENEFICIO_TRIBUTARIO_text INVERSION_TOTAL)) out in
  let BENEFICIO_TRIBUTARIO := toNum (get out "BENEFICIO_TRIBUTARIO") in
  let ahorroMensual0 :=
    if isNaN FACTURA then NaN else mul FACTURA (SAVINGS_RATE cfg) in
  let flows := buildFlows INVERSION_TOTAL ahorroMensual0 BENEFICIO_TRIBUTARIO in
  let out := set_if_absent "AHORRO_TOTAL" (VStr (AHORRO_TOTAL_text ahorroMensual0)) out in
  let out := <["BC" := VStr (BC_text INVERSION_TOTAL ahorroMensual0 BENEFICIO_TRIBUTARIO)]> out in
  let out := <["TIR" := VStr (TIR_text flows)]> out in
  let out := <["RECUPERACION_INVERSION" := VStr (RECUPERACION_INVERSION_text flows)]> out in
  let out := <["ROI" := VStr (ROI_text INVERSION_TOTAL flows)]> out in
  let out := set_if_absent "ENERGIA" (VStr (blank_or_string ENERGIA)) out in
  let out := set_if_absent "FACTURA" (VStr (blank_or_string FACTURA)) out in
  (format_block rt out, flows).

Definition computeFields (rt : Runtime) (input : obj) : obj :=
  fst (computeFields_run rt input).

(** The cash-flow sequence [flows] that [computeFields] builds for [input]. *)
Definition flows_of (rt : Runtime) (input : obj) : list num :=
  snd (computeFields_run rt input).

End WithConfig.


End Financial.

(** ** A host for the examples

    A rendering of numbers in the es-CO style (groups of three separated by
    dots, a decimal comma, at most three decimals, half rounded away from
    zero) and a fixed clock, used to run the functions on concrete inputs.
    Every general statement below holds for any host. *)

Module Host.

Local Open Scope string_scope.

(** Separates the digits of [s] in groups of three from the right. *)
Fixpoint group3 (n : nat) (s : string) : string :=
  match n with
  | O => s
  | S n' =>
      let len := String.length s in
      if (len <=? 3)%nat then s
      else append (group3 n' (substring 0 (len - 3) s))
                  (append "." (substring (len - 3) 3 s))
  end.

(** Drops the zeros that end [s]. *)
Fixpoint drop_trailing_zeros (n : nat) (s : string) : string :=
  match n with
  | O => s
  | S n' =>
      let len := String.length s in
      if String.eqb (substring (len - 1) 1 s) "0"
      then drop_trailing_zeros n' (substring 0 (len - 1) s)
      else s
  end.

Definition esCO (x : num) : string :=
  match x with
  | NaN => "NaN"
  | PInf => "∞"
  | NInf => "-∞"
  | Fin q =>
      let n := Qfloor (Qabs q * inject_Z 1000 + (1 # 2)) in
      let ip := string_of_nonneg (n / 1000) in
      let fp0 := string_of_nonneg (n mod 1000) in
      let fp := drop_trailing_zeros 3 (pad_zeros (3 - String.length fp0) fp0) in
      let body :=
        append (group3 (String.length ip) ip)
               (match fp with EmptyString => "" | _ => append "," fp end) in
      if Qsign_nonneg q || (n =? 0)%Z then body else append "-" body
  end.

Definition host : Runtime := {|
  toLocaleString := esCO;
  toLocaleDateString := "02/11/2026";
  getDate := 2;
  getMonth := 10;
  getFullYear := 2026
|}.

(** An object literal. *)
Definition object (fields : list (string * value)) : obj := list_to_map fields.

End Host.

(** ** PDF assembly and the request pipeline of [server.js] *)

Module Assembly.

Local Open Scope string_scope.

(** A byte buffer. *)
Abbreviation bytes := (list Byte.byte).

(** The address of a template page: the file name and the query
    parameters, before [URLSearchParams] encodes them. *)
Record PageUrl : Type := {
  filename : string;
  params : list (string * string)
}.

(** [buildPageUrl]: a parameter for every entry that is neither [undefined]
    nor [null], with [String(v)] as its text. *)
Definition buildPageUrl (file : string) (data : list (string * value)) : PageUrl :=
  {| filename := file;
     params :=
       omap (fun kv : string * value =>
               match kv.2 with
               | VUndef | VNull => None
               | v => Some (kv.1, String_of v)
               end) data |}.

(** [v || ''] *)
Definition or_empty (v : value) : value :=
  if falsy v then VStr "" else v.

Section Pipeline.

(** The page type of the PDF library, and [PDFDocument.load] followed by
    the copy of all pages in index order: the pages of a buffer, or the
    failure the library raises on a buffer it cannot read. *)
Variable page : Type.
Variable load : bytes -> option (list page).

(** [mergePdfBuffers]: the pages of the document that is saved; [None]
    when a load throws. *)
Fixpoint merge_into (out : list page) (buffers : list (option bytes))
    : option (list page) :=
  match buffers with
  | [] => Some out
  | b :: rest =>
      match b with
      | None | Some [] => merge_into out rest
      | Some bs =>
          src ← load bs;
          merge_into (out ++ src)%list rest
      end
  end.

Definition mergePdfBuffers (buffers : list (option bytes)) : option (list page) :=
  merge_into [] buffers.

(** The template directory, the file system ([existsSync] with
    [readFileSync]) and the page renderer, which may throw. *)
Variable TPL_DIR : string.
Variable fs : string -> option bytes.
Variable renderUrlToPdfBuffer : PageUrl -> option bytes.

Definition template_path (name : string) : string :=
  append TPL_DIR (append "/" name).

Definition STATIC_PDFS_afterIndex2 : list string :=
  [template_path "anexo1.pdf"; template_path "anexo2.pdf"].

Definition STATIC_PDFS_afterIndex3 : list string :=
  [template_path "anexo3.pdf"].

(** [readStaticPdfBuffer]: [null] for a file that does not exist. *)
Definition readStaticPdfBuffer (absPath : string) : option bytes := fs absPath.

(** [paths.map(readStaticPdfBuffer).filter(Boolean)] *)
Definition annex (paths : list string) : list (option bytes) :=
  filter (fun b : option bytes => is_Some b) (map readStaticPdfBuffer paths).

Definition urlIndex (data : obj) : PageUrl :=
  buildPageUrl "index.html"
    [("EMPRESA", get data "EMPRESA"); ("CLIENTE", get data "CLIENTE");
     ("CIUDAD", get data "CIUDAD"); ("FECHA", get data "FECHA");
     ("POTENCIA", get data "POTENCIA"); ("ENERGIA", get data "ENERGIA");
     ("FACTURA", get data "FACTURA")].

Definition urlIndex2 (data : obj) : PageUrl :=
  buildPageUrl "index2.html"
    [("PANELES", get data "PANELES"); ("INVERSORES", get data "INVERSORES")].

Definition urlIndex3 (data : obj) : PageUrl :=
  buildPageUrl "index3.html"
    [("INVERSION_TOTAL", get data "INVERSION_TOTAL");
     ("BENEFICIO_TRIBUTARIO", get data "BENEFICIO_TRIBUTARIO");
     ("RECUPERACION_INVERSION", get data "RECUPERACION_INVERSION");
     ("TIR", get data "TIR"); ("BC", get data "BC");
     ("AHORRO_TOTAL", get data "AHORRO_TOTAL");
     ("ENERGIA", get data "ENERGIA");
     ("AHORRO_MENSUAL", or_empty (get data "AHORRO_TOTAL"));
     ("FACTUIRA", or_empty (get data "FACTURA"));
     ("PAGO1", or_empty (get data "PAGO1"));
     ("PAGO2", or_empty (get data "PAGO2"));
     ("PAGO3", or_empty (get data "PAGO3"));
     ("PAGO4", or_empty (get data "PAGO4"));
     ("IVA_MATERIALES", or_empty (get data "IVA_MATERIALES"))].

(** The list handed to [mergePdfBuffers] by the handler of
    [POST /render/cotizacion]; [None] when a render throws. *)
Definition merge_input (rt : Runtime) (inputData : obj) : option (list (option bytes)) :=
  let data := Server.computeFields rt inputData in
  pdfIndex ← renderUrlToPdfBuffer (urlIndex data);
  pdfIndex2 ← renderUrlToPdfBuffer (urlIndex2 data);
  pdfIndex3 ← renderUrlToPdfBuffer (urlIndex3 data);
  let annexAfter2 := annex STATIC_PDFS_afterIndex2 in
  let annexAfter3 := annex STATIC_PDFS_afterIndex3 in
  Some ([Some pdfIndex; Some pdfIndex2] ++ annexAfter2 ++
        [Some pdfIndex3] ++ annexAfter3)%list.

(** The handler: the pages of the PDF sent with status 200, or [None] for
    the status 500 of the [catch] branch. *)
Definition render_cotizacion (rt : Runtime) (inputData : obj) : option (list page) :=
  buffers ← merge_input rt inputData;
  mergePdfBuffers buffers.

End Pipeline.

End Assembly.

(** ** [computeFields] of the simplified revision (figures taken from the
    spreadsheet results of the request; [src/unnamed/part_000]) *)

Module Simplified.

Local Open Scope string_scope.

(** [o[k]] for a name [k] that no prototype defines: the property of an
    object, [undefined] on every other value that is neither [null] nor
    [undefined].  An object lists each of its properties once. *)
Definition prop (o : value) (k : string) : value :=
  match o with
  | VObj fields =>
      match find (fun kv : string * value => String.eqb kv.1 k) fields with
      | Some kv => kv.2
      | None => VUndef
      end
  | _ => VUndef
  end.

Section WithLocale.

(** [n.toLocaleString('es-CO', { minimumFractionDigits: d,
    maximumFractionDigits: d })], supplied by the host. *)
Variable toLocaleFixed : nat -> num -> string.
Variable rt : Runtime.

(** [formatCO]: rounds to the nearest integer before rendering. *)
Definition formatCO (v : value) : string :=
  let n := toNum v in
  if isNaN n then "" else toLocaleString rt (round n).

Definition formatDecimal (v : value) (digits : nat) : string :=
  let n := toNum v in
  if isNaN n then "" else toLocaleFixed digits n.

Definition formatPercent (v : value) (digits : nat) : string :=
  let n := toNum v in
  if isNaN n then "" else append (toLocaleFixed digits (mul n (ofZ 100))) "%".

Definition computeFields (input : obj) : obj :=
  let out := input in (* const out = { ...input } *)
  let resultados :=
    if falsy (get input "resultados") then VObj [] else get input "resultados" in
  let out := <["POTENCIA" := VStr (formatDecimal (prop resultados "PROYECTO!E6") 2)]> out in
  let out := <["INVERSORES" :=
                 VStr (formatCO (VNum (floor (toNum (prop resultados "PROYECTO!E7")))))]> out in
  let out := <["INVERSION_TOTAL" := VStr (formatCO (prop resultados "PROYECTO!E17"))]> out in
  let out := <["AHORRO_TOTAL" := VStr (formatCO (prop resultados "PROYECTO!E19"))]> out in
  let out := <["RECUPERACION_INVERSION" :=
                 VStr (formatDecimal (prop resultados "PROYECTO!E20") 2)]> out in
  let out := <["BENEFICIO_TRIBUTARIO" := VStr (formatCO (prop resultados "PROYECTO!E23"))]> out in
  let out := <["PAGO1" := VStr (formatCO (prop resultados "PROYECTO!D40"))]> out in
  let out := <["PAGO2" := VStr (formatCO (prop resultados "PROYECTO!D44"))]> out in
  let out := <["PAGO3" := VStr (formatCO (prop resultados "PROYECTO!D49"))]> out in
  let out := <["PAGO4" := VStr (formatCO (prop resultados "PROYECTO!D54"))]> out in
  let out := <["TIR" := VStr (formatPercent (prop resultados "VPN+TIR!E55") 2)]> out in
  let out := <["ENERGIA" := VStr (formatCO (get out "ENERGIA"))]> out in
  let out := <["FACTURA" := VStr (formatCO (get out "FACTURA"))]> out in
  let out := <["PANELES" := VStr (formatCO (prop resultados "PROYECTO!F6"))]> out in
  let out := <["BC" := Assembly.or_empty (get out "BC")]> out in
  let out := <["IVA_MATERIALES" := Assembly.or_empty (get out "IVA_MATERIALES")]> out in
  set_FECHA rt out.

End WithLocale.




End Simplified.

(** ** The properties as the specification words them

    Definitions written from the specification's sentences, to be compared
    with the functions above. *)

Module Spec.

Local Open Scope string_scope.

(** A cash flow has a sign change when it holds a negative and a positive
    entry. *)
Definition hasSignChange (flows : list num) : bool :=
  existsb (fun x => lt x (ofZ 0)) flows && existsb (fun x => gt x (ofZ 0)) flows.



Definition Qsum (qs : list Q) : Q := fold_right Qplus 0%Q qs.

(** The cumulative undiscounted cash flow at the end of year [t]. *)
Definition cumulative (qs : list Q) (t : nat) : Q :=
  Qsum (firstn (S t) qs).

(** The first year at whose end the cumulative flow is non-negative. *)
Definition crossing_year (qs : list Q) : option nat :=
  find (fun t => Qle_bool 0 (cumulative qs t)) (seq 0 (length qs)).

(** "Payback period: fractional year count at which cumulative
    undiscounted cash flow first becomes non-negative", "via linear
    interpolation within the first year the cumulative cash flow becomes
    non-negative": nothing to recover when year 0 already is non-negative;
    otherwise the point of the crossing year [t + 1] at which the line
    from the cumulative flow at [t] to the one at [t + 1] meets zero. *)
Definition payback (qs : list Q) : num :=
  match crossing_year qs with
  | None => NaN
  | Some O => ofZ 0
  | Some (S t) =>
      fin (inject_Z (Z.of_nat t) + (- cumulative qs t) / nth (S t) qs 0)%Q
  end.

(** "benefitY = taxBenefit in year 1 only (policy A) or taxBenefit/5 in
    years 1..5 (policy B), else 0". *)
Definition benefitY (cfg : Financial.Config) (taxBenefit : num) (y : nat) : num :=
  if String.eqb (Financial.TAX_BENEFIT_MODE cfg) "YEAR1" then
    if (y =? 1)%nat then taxBenefit else ofZ 0
  else if String.eqb (Financial.TAX_BENEFIT_MODE cfg) "DISTRIB_5Y" then
    if (y <=? 5)%nat then div taxBenefit (ofZ 5) else ofZ 0
  else ofZ 0.

(** "savingsY = monthlySavings0 x (1 - degradationRate)^(y-1) x 12;
    omY = investment x omRate; flow[y] = savingsY - omY + benefitY". *)
Definition flow_of_year (cfg : Financial.Config)
    (investment monthlySavings0 taxBenefit : num) (y : nat) : num :=
  let savingsY :=
    mul (mul monthlySavings0
             (pow (sub (ofZ 1) (Financial.DEGRAD cfg)) (y - 1)))
        (ofZ 12) in
  let omY := mul investment (Financial.O_M_RATE cfg) in
  add (sub savingsY omY) (benefitY cfg taxBenefit y).


(** The buffer of an annex file in the merge list: there when the file
    exists. *)
Definition present (b : option Assembly.bytes) : list (option Assembly.bytes) :=
  match b with
  | Some a => [Some a]
  | None => []
  end.

End Spec.

(** ** Stand-ins for the collaborators, used in the examples *)

Module Fixtures.

Local Open Scope string_scope.

(** A PDF library that reads one page per byte. *)
Definition page_per_byte (bs : Assembly.bytes) : option (list Byte.byte) := Some bs.

(** A renderer that answers each template with a one-byte document. *)
Definition render (url : Assembly.PageUrl) : option Assembly.bytes :=
  if String.eqb (Assembly.filename url) "index.html" then Some [Byte.x01]
  else if String.eqb (Assembly.filename url) "index2.html" then Some [Byte.x02]
  else if String.eqb (Assembly.filename url) "index3.html" then Some [Byte.x03]
  else None.

(** A template directory that holds the three annexes. *)
Definition files (path : string) : option Assembly.bytes :=
  if String.eqb path "/app/templates/anexo1.pdf" then Some [Byte.x0a]
  else if String.eqb path "/app/templates/anexo2.pdf" then Some [Byte.x0b]
  else if String.eqb path "/app/templates/anexo3.pdf" then Some [Byte.x0c]
  else None.

End Fixtures.

(** ** Vocabulary of the further properties *)

Module Terms.

Local Open Scope string_scope.

(** The number of occurrences of [c] in [s]. *)
Fixpoint count_char (c : ascii) (s : string) : nat :=
  match s with
  | EmptyString => 0
  | String d rest => (if Ascii.eqb d c then 1 else 0) + count_char c rest
  end.





End Terms.

Export Terms.

(** * Properties *)

(** ** Reading a field back through the statements of [computeFields] *)

Section StepLemmas.

Local Open Scope string_scope.

Implicit Types (k : string) (v : value) (out : obj).

Lemma has_None k out : out !! k = None -> has k out = false.
Proof. intros H. unfold has. rewrite H. apply bool_decide_eq_false. by intros [? ?]. Qed.

Lemma has_Some k v out : out !! k = Some v -> has k out = true.
Proof. intros H. unfold has. rewrite H. apply bool_decide_eq_true. by eexists. Qed.

Lemma get_Some k v out : out !! k = Some v -> get out k = v.
Proof. intros H. unfold get. by rewrite H. Qed.


Lemma get_eq k out out' : out !! k = out' !! k -> get out k = get out' k.
Proof. intros H. unfold get. by rewrite H. Qed.

Lemma lookup_set_if_absent_ne k k' v out :
  k <> k' -> set_if_absent k v out !! k' = out !! k'.
Proof.
  intros Hne. unfold set_if_absent.
  destruct (negb (has k out)); [by rewrite lookup_insert_ne | done].
Qed.

Lemma lookup_set_if_absent_None k v out :
  out !! k = None -> set_if_absent k v out !! k = Some v.
Proof.
  intros H. unfold set_if_absent. rewrite (has_None _ _ H). simpl.
  apply lookup_insert_eq.
Qed.

Lemma lookup_set_if_absent_Some k v w out :
  out !! k = Some w -> set_if_absent k v out !! k = Some w.
Proof.
  intros H. unfold set_if_absent. by rewrite (has_Some _ _ _ H).
Qed.

Lemma lookup_reformat_ne rt k k' out :
  k <> k' -> reformat rt k out !! k' = out !! k'.
Proof. intros Hne. unfold reformat. by rewrite lookup_insert_ne. Qed.


Lemma lookup_set_FECHA_ne rt k out :
  "FECHA" <> k -> set_FECHA rt out !! k = out !! k.
Proof.
  intros Hne. unfold set_FECHA.
  destruct (falsy _); [by rewrite lookup_insert_ne | done].
Qed.


Lemma lookup_set_PAGO_ne k k' inv share out :
  k <> k' -> set_PAGO k inv share out !! k' = out !! k'.
Proof.
  intros Hne. unfold set_PAGO.
  destruct (_ || _); [by rewrite lookup_insert_ne | done].
Qed.


Lemma lookup_format_block_ne rt k out :
  k ∉ formatted_fields -> format_block rt out !! k = out !! k.
Proof.
  intros Hk. unfold format_block, formatted_fields in *.
  rewrite !lookup_reformat_ne; [done | ..];
    intros <-; apply Hk; repeat first [ apply list_elem_of_here | apply list_elem_of_further ].
Qed.


End StepLemmas.

(** Names the outermost [let] of the goal as a local definition, so that a
    chain of assignments is walked without copying its right-hand sides. *)
Ltac name_let :=
  lazymatch goal with
  | |- context G [let x := ?e in @?b x] =>
      let y := fresh x in
      pose (y := e);
      let g := context G [b y] in
      change g; cbv beta
  end.

(** Two field names differ. *)
Ltac key_ne :=
  solve [ let H := fresh in intros H; discriminate H
        | assumption | apply not_eq_sym; assumption ].

(** Membership of a field name in a list of names, or the lack of it. *)
Ltac decide_member :=
  solve [ apply (bool_decide_unpack _); vm_compute; exact I
        | assumption ].

(** Reads a field back through assignments to other fields. *)
Ltac skip_step :=
  first
    [ rewrite lookup_set_if_absent_ne by key_ne
    | rewrite lookup_reformat_ne by key_ne
    | rewrite lookup_set_FECHA_ne by key_ne
    | rewrite lookup_set_PAGO_ne by key_ne
    | rewrite lookup_insert_ne by key_ne
    | rewrite lookup_format_block_ne by decide_member ].

Ltac unfold_local :=
  match goal with
  | o := _ |- context [?o' !! _] => constr_eq o o'; unfold o; try clear o
  end.

Ltac split_if :=
  match goal with
  | |- context [(if ?c then _ else _) !! _] => destruct c
  end.

Ltac read_back := repeat first [ skip_step | name_let | unfold_local | split_if ].

(** A field that is absent from the input, assigned once, and read at
    the end. *)
Ltac fixed_field :=
  read_back;
  (rewrite lookup_set_if_absent_None; [reflexivity|]);
  read_back; assumption.

Section FixedFigures.

Local Open Scope string_scope.

Lemma fixed_figures_values :
  fixed_TIR = "6.33%" /\ fixed_BC = "2.5" /\
  fixed_AHORRO_TOTAL = "83333333" /\ fixed_RECUPERACION_INVERSION = "3".
Proof. by vm_compute. Qed.

Lemma formatCO_fixed_AHORRO_TOTAL rt :
  formatCO rt (VStr fixed_AHORRO_TOTAL) = toLocaleString rt (ofZ 83333333).
Proof. reflexivity. Qed.



End FixedFigures.

(** ** The numeric parse *)

Section Parse.

Local Open Scope string_scope.

(** The clean-up leaves digits, dots and minus signs only. *)
Lemma strip_non_numeric_chars (s : string) :
  all_chars is_numeric_char (strip_non_numeric s) = true.
Proof.
  unfold strip_non_numeric.
  induction s as [|c s IH]; simpl; [done|].
  destruct (is_numeric_char c) eqn:Hc; simpl; [by rewrite Hc|done].
Qed.

(** The clean-up keeps every digit, dot and minus sign, in order. *)
Lemma strip_non_numeric_id (s : string) :
  all_chars is_numeric_char s = true -> strip_non_numeric s = s.
Proof.
  unfold strip_non_numeric.
  induction s as [|c s IH]; simpl; [done|].
  intros [Hc Hs]%andb_prop. rewrite Hc. by rewrite IH.
Qed.

(** On a non-empty text, [toNum] is [Number] of the cleaned-up text. *)
Lemma toNum_VStr (s : string) :
  s <> "" -> toNum (VStr s) = Number (strip_non_numeric s).
Proof.
  intros Hs. unfold toNum. destruct s as [|c s]; [done|].
  simpl String_of. by destruct (Number _).
Qed.

Example toNum_currency_text : toNum (VStr "$ 1,234.50") = dec 12345 1.
Proof. by vm_compute. Qed.

Example toNum_dotted_thousands : toNum (VStr "1.234.567") = NaN.
Proof. by vm_compute. Qed.

Example toNum_absent : toNum VUndef = NaN /\ toNum VNull = NaN /\ toNum (VStr "") = NaN.
Proof. by vm_compute. Qed.

(** C6, at the failing inputs.  A text with no digit, dot or minus sign is
    emptied by the clean-up, and [Number('')] is [0]: [toNum] returns [0],
    not [NaN], for "abc", "$" and "N/A", and for the number [NaN] itself,
    whose text is "NaN"; [formatCO] then prints "0" where its
    documentation promises the empty text. *)
Theorem toNum_of_text_without_digits :
  toNum (VStr "abc") = ofZ 0 /\
  toNum (VStr "$") = ofZ 0 /\
  toNum (VStr "N/A") = ofZ 0 /\
  toNum (VNum NaN) = ofZ 0 /\
  isNaN (toNum (VStr "abc")) = false /\
  formatCO Host.host (VStr "abc") = "0".
Proof. by vm_compute. Qed.

End Parse.

(** ** The payback period *)

Section PaybackRefinement.

Local Open Scope list_scope.







Lemma Qred_eq (a b : Q) : (a == b)%Q -> Qred a = Qred b.
Proof. apply Qred_complete. Qed.


Lemma div_Fin (a b : Q) : ~ (b == 0)%Q -> div (Fin a) (Fin b) = Fin (Qred (a / b)).
Proof.
  intros Hb. unfold div. destruct (Qis_zero b) eqn:E; [|done].
  exfalso. apply Hb. unfold Qis_zero in E. apply Z.eqb_eq in E.
  unfold Qeq. simpl. lia.
Qed.




End PaybackRefinement.

Section Payback.

Example paybackYears_constant_50 :
  paybackYears (ofZ (-100) :: repeat (ofZ 50) 25) = ofZ 2.
Proof. by vm_compute. Qed.

Example paybackYears_60_60 :
  paybackYears [ofZ (-100); ofZ 60; ofZ 60] = fin (5 # 3) /\
  lt (ofZ 1) (paybackYears [ofZ (-100); ofZ 60; ofZ 60]) = true /\
  lt (paybackYears [ofZ (-100); ofZ 60; ofZ 60]) (ofZ 2) = true /\
  toFixed (paybackYears [ofZ (-100); ofZ 60; ofZ 60]) 2 = "1.67"%string.
Proof. by vm_compute. Qed.

Example paybackYears_never : paybackYears [ofZ (-100); ofZ 10; ofZ 10] = NaN.
Proof. by vm_compute. Qed.

(** C3, at the failing inputs.  When the cumulative flow is already
    non-negative at year 0, the interpolation is still taken "within the
    year" before it and [paybackYears] returns [-1], a negative count of
    years, where the payback period of the specification is [0]. *)
Theorem paybackYears_crossing_at_year_0 :
  paybackYears [ofZ 0; ofZ 5] = ofZ (-1) /\
  Spec.payback [0; 5]%Q = ofZ 0 /\
  paybackYears [ofZ 100] = ofZ (-1) /\
  Spec.payback [100]%Q = ofZ 0 /\
  Financial.computeFields Financial.constants Host.host
    (Host.object [("INVERSION_TOTAL", VStr "0")]) !! "RECUPERACION_INVERSION"%string
  = Some (VStr "-1.0").
Proof. by vm_compute. Qed.

End Payback.

(** ** The cash-flow sequence *)

(** A field that the input supplies with value [v], kept by the statement
    that would derive it, and read later. *)
Ltac kept_field v :=
  read_back;
  (rewrite (lookup_set_if_absent_Some _ _ v); [reflexivity|]);
  read_back; assumption.

Section CashFlow.

Local Open Scope string_scope.

Import Financial.

Variable cfg : Config.
Implicit Types (inv ah ben : num) (y : nat).

Lemma buildFlows_length inv ah ben :
  length (buildFlows cfg inv ah ben) = S (YEARS cfg).
Proof. unfold buildFlows. simpl. by rewrite length_map, length_seq. Qed.

Lemma buildFlows_head inv ah ben :
  buildFlows cfg inv ah ben !! 0%nat = Some (neg inv).
Proof. unfold buildFlows. simpl. by destruct inv. Qed.

Lemma buildFlows_year inv ah ben y :
  (1 <= y <= YEARS cfg)%nat ->
  buildFlows cfg inv ah ben !! y = Some (yearFlow cfg inv ah ben y).
Proof.
  intros [H1 H2]. unfold buildFlows.
  destruct y as [|y']; [lia|]. simpl.
  rewrite list_lookup_fmap, lookup_seq_lt by lia. done.
Qed.

(** The two [if]s of the source pick the benefit of the specification. *)
Lemma benY_spec ben y :
  isNaN ben = false -> benY cfg ben y = Spec.benefitY cfg ben y.
Proof.
  intros Hb. unfold benY, Spec.benefitY. rewrite Hb. simpl.
  destruct (String.eqb (TAX_BENEFIT_MODE cfg) "YEAR1") eqn:E1; simpl.
  - apply String.eqb_eq in E1. rewrite E1. simpl. done.
  - by destruct (String.eqb _ "DISTRIB_5Y"), (y <=? 5)%nat.
Qed.

(** The replacements made for a [NaN] operand. *)
Lemma NaN_operands_count_as_zero y :
  ahorroAnual cfg true NaN y = ofZ 0 /\ oym cfg NaN = ofZ 0 /\ benY cfg NaN y = ofZ 0.
Proof. done. Qed.

(** C4, as the code has it.  [flow[0] = -investment]; and when
    investment, monthly saving and tax benefit are numbers (none is
    [NaN]), every year [y] of [1..years] has
    [flow[y] = monthlySavings0 * (1 - degradationRate)^(y-1) * 12
               - investment * omRate + benefitY].
    A [NaN] monthly saving, investment or tax benefit is replaced by a
    zero saving, a zero operating cost and a zero benefit. *)
Theorem buildFlows_formula inv ah ben :
  buildFlows cfg inv ah ben !! 0%nat = Some (neg inv) /\
  (isNaN inv = false -> isNaN ah = false -> isNaN ben = false ->
   forall y, (1 <= y <= YEARS cfg)%nat ->
     buildFlows cfg inv ah ben !! y = Some (Spec.flow_of_year cfg inv ah ben y)) /\
  (forall y, (1 <= y <= YEARS cfg)%nat ->
     buildFlows cfg inv ah ben !! y
     = Some (add (sub (ahorroAnual cfg true ah y) (oym cfg inv)) (benY cfg ben y))) /\
  (forall y, ahorroAnual cfg true NaN y = ofZ 0 /\ oym cfg NaN = ofZ 0 /\
             benY cfg NaN y = ofZ 0).
Proof.
  split; [apply buildFlows_head|]. split; [|split].
  - intros Hi Ha Hb y Hy. rewrite buildFlows_year by done. f_equal.
    unfold yearFlow, Spec.flow_of_year, ahorroAnual, oym.
    rewrite Hi, Ha, benY_spec by done. done.
  - intros y Hy. by rewrite buildFlows_year.
  - apply NaN_operands_count_as_zero.
Qed.

Variable rt : Runtime.

(** The arguments with which [computeFields] builds its [flows]: each is
    the parse of the field the input supplies, or else of the text derived
    for it. *)
Lemma flows_of_buildFlows (input : obj) :
  exists pot inv ah ben,
    flows_of cfg rt input = buildFlows cfg inv ah ben /\
    (forall v, input !! "POTENCIA" = Some v -> pot = toNum v) /\
    (input !! "POTENCIA" = None ->
       pot = toNum (VStr (POTENCIA_text (toNum (get input "ENERGIA"))))) /\
    (forall v, input !! "INVERSION_TOTAL" = Some v -> inv = toNum v) /\
    (input !! "INVERSION_TOTAL" = None ->
       inv = toNum (VStr (INVERSION_TOTAL_text pot))) /\
    ah = (if isNaN (toNum (get input "FACTURA")) then NaN
          else mul (toNum (get input "FACTURA")) (SAVINGS_RATE cfg)) /\
    (forall v, input !! "BENEFICIO_TRIBUTARIO" = Some v -> ben = toNum v) /\
    (input !! "BENEFICIO_TRIBUTARIO" = None ->
       ben = toNum (VStr (BENEFICIO_TRIBUTARIO_text inv))).
Proof.
  unfold flows_of. cbv beta delta [computeFields_run]. repeat name_let.
  cbn [snd]. exists POTENCIA, INVERSION_TOTAL, ahorroMensual0, BENEFICIO_TRIBUTARIO.
  split; [reflexivity|]. repeat apply conj.
  - intros v Hv. unfold POTENCIA. f_equal. apply get_Some. kept_field v.
  - intros Hv. unfold POTENCIA. f_equal. apply get_Some.
    read_back. rewrite lookup_set_if_absent_None; [|read_back; assumption].
    do 3 f_equal. unfold ENERGIA. f_equal. apply get_eq. by read_back.
  - intros v Hv. unfold INVERSION_TOTAL. f_equal. apply get_Some. kept_field v.
  - intros Hv. unfold INVERSION_TOTAL. f_equal. apply get_Some. fixed_field.
  - unfold ahorroMensual0, FACTURA.
    replace (get out0 "FACTURA") with (get input "FACTURA"); [done|].
    apply get_eq. symmetry. by read_back.
  - intros v Hv. unfold BENEFICIO_TRIBUTARIO. f_equal. apply get_Some. kept_field v.
  - intros Hv. unfold BENEFICIO_TRIBUTARIO. f_equal. apply get_Some. fixed_field.
Qed.

End CashFlow.

Section CashFlowExamples.

Local Open Scope string_scope.

Import Financial.

(** The formula of C4 on a sized installation: year 1 carries the saving,
    the operating cost and the whole tax benefit. *)
Lemma buildFlows_formula_witness :
  buildFlows constants (ofZ 20874000) (ofZ 320000) (ofZ 10437000) !! 1%nat
  = Some (ofZ (3840000 - 208740 + 10437000)).
Proof.
  destruct (buildFlows_formula constants (ofZ 20874000) (ofZ 320000) (ofZ 10437000))
    as (_ & H & _).
  rewrite H; [by vm_compute | reflexivity | reflexivity | reflexivity | simpl; lia].
Defined.

(** C4 as stated fails when an operand is [NaN].  For an input without
    [ENERGIA] the investment is [NaN]: the formula gives [NaN] for year 1,
    the code gives the year's saving.  For an input without [FACTURA] the
    monthly saving is [NaN]: the formula gives [NaN], the code gives the tax
    benefit less the operating cost. *)
Lemma buildFlows_NaN_investment_counterexample :
  (Spec.flow_of_year constants NaN (ofZ 320000) NaN 1 = NaN /\
   buildFlows constants NaN (ofZ 320000) NaN !! 1%nat = Some (ofZ 3840000) /\
   flows_of constants Host.host (Host.object [("FACTURA", VStr "400000")]) !! 1%nat
   = Some (ofZ 3840000)) /\
  (Spec.flow_of_year constants (ofZ 20874000) NaN (ofZ 10437000) 1 = NaN /\
   exists x,
     flows_of constants Host.host (Host.object [("ENERGIA", VStr "500")]) !! 1%nat
     = Some x /\ isFinite x = true).
Proof.
  split; [split; [by vm_compute|]; split; [by vm_compute|] | split; [by vm_compute|]].
  - destruct (flows_of_buildFlows constants Host.host
                (Host.object [("FACTURA", VStr "400000")]))
      as (pot & inv & ah & ben & Hf & _ & Hpot & _ & Hinv & Hah & _ & Hben).
    specialize (Hpot eq_refl). specialize (Hinv eq_refl). specialize (Hben eq_refl).
    rewrite Hf, Hah, Hben, Hinv, Hpot. by vm_compute.
  - destruct (flows_of_buildFlows constants Host.host
                (Host.object [("ENERGIA", VStr "500")]))
      as (pot & inv & ah & ben & Hf & _ & Hpot & _ & Hinv & Hah & _ & Hben).
    specialize (Hpot eq_refl). specialize (Hinv eq_refl). specialize (Hben eq_refl).
    exists (ofZ (10437000 - 208740)).
    rewrite Hf, Hah, Hben, Hinv, Hpot. vm_compute. split; reflexivity.
Qed.

End CashFlowExamples.

(** ** The entry of year 0 *)

Section InitialOutflow.

Local Open Scope string_scope.

Import Financial.





End InitialOutflow.

(** ** Input wins *)

Section InputWins.

Local Open Scope string_scope.

Implicit Types (k : string) (v : value) (out : obj).










End InputWins.


(** ** Silent degradation *)

Section Degradation.

Local Open Scope string_scope.

Implicit Types (k : string) (v : value) (out : obj).














(** C5, at the failing input.  A text [ENERGIA] without a digit is not
    read as a failed parse but as [0] (the defect of C6): the derived
    fields come out as "0", not empty. *)
Theorem text_ENERGIA_is_sized_as_zero :
  let input := Host.object [("ENERGIA", VStr "N/A")] in
  toNum (VStr "N/A") = ofZ 0 /\
  (Server.computeFields Host.host input !! "POTENCIA" = Some (VStr "0") /\
   Server.computeFields Host.host input !! "PANELES" = Some (VStr "0") /\
   Server.computeFields Host.host input !! "INVERSORES" = Some (VStr "0") /\
   Server.computeFields Host.host input !! "INVERSION_TOTAL" = Some (VStr "0")) /\
  (Financial.computeFields Financial.constants Host.host input !! "POTENCIA"
     = Some (VStr "0") /\
   Financial.computeFields Financial.constants Host.host input !! "PANELES"
     = Some (VStr "0") /\
   Financial.computeFields Financial.constants Host.host input !! "INVERSORES"
     = Some (VStr "0") /\
   Financial.computeFields Financial.constants Host.host input !! "INVERSION_TOTAL"
     = Some (VStr "0")).
Proof. by vm_compute. Qed.

End Degradation.

(** ** The internal rate of return *)

Section RootFinder.

Local Open Scope string_scope.


Variable flows : list num.





End RootFinder.

Section RootFinderExamples.

Local Open Scope string_scope.






(** The flow of zeros never changes sign, and [irr] returns the first
    midpoint of the bracket for it, 2.05. *)
Example irr_of_zero_flows :
  Spec.hasSignChange [ofZ 0; ofZ 0; ofZ 0] = false /\
  irr [ofZ 0; ofZ 0; ofZ 0] default_guess = dec 205 2.
Proof. by vm_compute. Qed.

(** One outflow of 100 repaid by 110 a year later: 10%. *)
Example irr_of_two_flows :
  toFixed (mul (irr [ofZ (-100); ofZ 110] default_guess) (ofZ 100)) 2 = "10.00".
Proof. by vm_compute. Qed.

End RootFinderExamples.

(** ** Assembly of the document *)

Section Merge.

Local Open Scope string_scope.

Import Assembly.

Variable page : Type.
Variable load : bytes -> option (list page).



(** A non-empty buffer that the library cannot read fails the merge. *)
Lemma mergePdfBuffers_unreadable (buffers : list (option bytes)) (x : Byte.byte) (bs : bytes) :
  Some (x :: bs) ∈ buffers -> load (x :: bs) = None ->
  mergePdfBuffers page load buffers = None.
Proof.
  unfold mergePdfBuffers. generalize (@nil page).
  induction buffers as [|b rest IH]; intros out Hin Hnone.
  - by apply elem_of_nil in Hin.
  - apply elem_of_cons in Hin as [<- | Hin].
    + simpl. by rewrite Hnone.
    + destruct b as [[|y ys]|]; simpl; try by apply IH.
      destruct (load (y :: ys)); simpl; [by apply IH | done].
Qed.

End Merge.

Section MergeExample.

Import Assembly.


End MergeExample.

Section Order.

Local Open Scope string_scope.

Import Assembly.


Variable TPL_DIR : string.
Variable fs : string -> option bytes.
Variable renderUrlToPdfBuffer : PageUrl -> option bytes.
Variable rt : Runtime.

Lemma annex_two (p1 p2 : string) :
  annex fs [p1; p2] = (Spec.present (fs p1) ++ Spec.present (fs p2))%list.
Proof.
  unfold annex, readStaticPdfBuffer. simpl.
  destruct (fs p1), (fs p2); reflexivity.
Qed.

Lemma annex_one (p : string) : annex fs [p] = Spec.present (fs p).
Proof. unfold annex, readStaticPdfBuffer. simpl. by destruct (fs p). Qed.

(** C8.  For every request the list handed to [mergePdfBuffers] is, in
    this order: the render of [index.html], the render of [index2.html],
    the annexes [anexo1.pdf] and [anexo2.pdf] that exist, the render of
    [index3.html], and [anexo3.pdf] if it exists.  The request reaches
    the pages through their parameters only: it has no say in the
    order. *)
Theorem merge_input_order (inputData : obj) :
  let data := Server.computeFields rt inputData in
  filename (urlIndex data) = "index.html" /\
  filename (urlIndex2 data) = "index2.html" /\
  filename (urlIndex3 data) = "index3.html" /\
  (forall buffers,
     merge_input TPL_DIR fs renderUrlToPdfBuffer rt inputData = Some buffers ->
     exists pdfIndex pdfIndex2 pdfIndex3,
       renderUrlToPdfBuffer (urlIndex data) = Some pdfIndex /\
       renderUrlToPdfBuffer (urlIndex2 data) = Some pdfIndex2 /\
       renderUrlToPdfBuffer (urlIndex3 data) = Some pdfIndex3 /\
       buffers =
         ([Some pdfIndex; Some pdfIndex2]
          ++ Spec.present (fs (template_path TPL_DIR "anexo1.pdf"))
          ++ Spec.present (fs (template_path TPL_DIR "anexo2.pdf"))
          ++ [Some pdfIndex3]
          ++ Spec.present (fs (template_path TPL_DIR "anexo3.pdf")))%list) /\
  (forall pdfIndex pdfIndex2 pdfIndex3 anexo1 anexo2 anexo3,
     renderUrlToPdfBuffer (urlIndex data) = Some pdfIndex ->
     renderUrlToPdfBuffer (urlIndex2 data) = Some pdfIndex2 ->
     renderUrlToPdfBuffer (urlIndex3 data) = Some pdfIndex3 ->
     fs (template_path TPL_DIR "anexo1.pdf") = Some anexo1 ->
     fs (template_path TPL_DIR "anexo2.pdf") = Some anexo2 ->
     fs (template_path TPL_DIR "anexo3.pdf") = Some anexo3 ->
     merge_input TPL_DIR fs renderUrlToPdfBuffer rt inputData
     = Some [Some pdfIndex; Some pdfIndex2; Some anexo1; Some anexo2;
             Some pdfIndex3; Some anexo3]).
Proof.
  intros data. do 3 (split; [reflexivity|]). split.
  - intros buffers. unfold merge_input. fold data.
    destruct (renderUrlToPdfBuffer (urlIndex data)) as [a|]; [|done].
    destruct (renderUrlToPdfBuffer (urlIndex2 data)) as [b|]; [|done].
    destruct (renderUrlToPdfBuffer (urlIndex3 data)) as [c|]; [|done].
    simpl. intros [= <-]. exists a, b, c. repeat split.
    unfold STATIC_PDFS_afterIndex2, STATIC_PDFS_afterIndex3.
    rewrite annex_two, annex_one. by rewrite <- !app_assoc.
  - intros a b c a1 a2 a3 Ha Hb Hc H1 H2 H3. unfold merge_input. fold data.
    rewrite Ha, Hb, Hc. simpl.
    unfold STATIC_PDFS_afterIndex2, STATIC_PDFS_afterIndex3.
    rewrite annex_two, annex_one, H1, H2, H3. reflexivity.
Qed.

End Order.

Section OrderExample.

Import Assembly.

(** With the three annexes in place the list has six buffers, annexes 1
    and 2 between the second and the third page. *)
Lemma merge_input_order_witness :
  merge_input "/app/templates" Fixtures.files Fixtures.render Host.host ∅
  = Some [Some [Byte.x01]; Some [Byte.x02]; Some [Byte.x0a]; Some [Byte.x0b];
          Some [Byte.x03]; Some [Byte.x0c]].
Proof.
  apply (merge_input_order "/app/templates" Fixtures.files Fixtures.render
           Host.host ∅); reflexivity.
Defined.

End OrderExample.

(** * Further properties *)



(** ** Numbers written and read back *)

Section Integers.

Local Open Scope string_scope.

Lemma strip_non_numeric_idem (s : string) :
  strip_non_numeric (strip_non_numeric s) = strip_non_numeric s.
Proof. apply strip_non_numeric_id, strip_non_numeric_chars. Qed.













End Integers.

Section Decimals.

Local Open Scope string_scope.

Local Open Scope Z_scope.

Lemma append_cons (c : ascii) (s t : string) :
  append (String c s) t = String c (append s t).
Proof. reflexivity. Qed.



Lemma length_append (s t : string) :
  String.length (append s t) = (String.length s + String.length t)%nat.
Proof.
  induction s as [|c s IH]; [done|].
  rewrite append_cons. cbn [String.length]. by rewrite IH.
Qed.

Lemma read_digits_app (s t : string) (acc : Z) :
  read_digits acc (append s t) = read_digits acc s ≫= fun a => read_digits a t.
Proof.
  revert acc. induction s as [|c s IH]; intros acc; [done|].
  rewrite append_cons. cbn [read_digits].
  destruct (is_digit c); [apply IH | done].
Qed.





End Decimals.

Section DecimalsRead.

Local Open Scope string_scope.

Local Open Scope Z_scope.




End DecimalsRead.

Section ParseMore.

Local Open Scope string_scope.


(** X2.  Whatever surrounds the digits is ignored: a text with at least
    one digit, dot or minus sign is read as the text that is left when every
    other character (currency signs, spaces, letters, commas) is taken
    out. *)
Theorem toNum_ignores_decoration (s : string) :
  strip_non_numeric s <> "" ->
  toNum (VStr s) = toNum (VStr (strip_non_numeric s)).
Proof.
  intros Hs. rewrite (toNum_VStr (strip_non_numeric s)) by done.
  rewrite strip_non_numeric_idem. apply toNum_VStr.
  intros ->. by apply Hs.
Qed.

Lemma count_dots_strip (s : string) :
  count_char "." (strip_non_numeric s) = count_char "." s.
Proof.
  unfold strip_non_numeric. induction s as [|c s IH]; [done|].
  cbn [filter_chars count_char].
  destruct (is_numeric_char c) eqn:Hc.
  - cbn [count_char]. by rewrite IH.
  - rewrite IH. destruct (Ascii.eqb c ".") eqn:E; [|done].
    apply Ascii.eqb_eq in E. subst c. discriminate Hc.
Qed.

Lemma read_digits_dot (s : string) (acc : Z) :
  (1 <= count_char "." s)%nat -> read_digits acc s = None.
Proof.
  revert acc. induction s as [|c s IH]; intros acc; cbn [count_char read_digits]; [lia|].
  destruct (Ascii.eqb c ".") eqn:E.
  - apply Ascii.eqb_eq in E. subst c. done.
  - intros H. destruct (is_digit c); [|done]. apply IH. simpl in H. lia.
Qed.

Lemma parse_unsigned_two_dots (s : string) :
  (2 <= count_char "." s)%nat -> parse_unsigned s = NaN.
Proof.
  unfold parse_unsigned.
  assert (H : (2 <= count_char "." s)%nat ->
              exists a f, split_dot s = (a, Some f) /\ (1 <= count_char "." f)%nat).
  { induction s as [|c s IH]; cbn [count_char split_dot]; [lia|].
    destruct (Ascii.eqb c ".") eqn:E.
    - intros H. exists "", s. split; [done|]. lia.
    - intros H. destruct IH as (a & f & Hsp & Hf); [simpl in H; lia|].
      rewrite Hsp. by exists (String c a), f. }
  intros H2. destruct (H H2) as (a & f & -> & Hf).
  rewrite (read_digits_dot f) by done. by destruct (read_digits 0 a).
Qed.

Lemma Number_two_dots (s : string) :
  (2 <= count_char "." s)%nat -> Number s = NaN.
Proof.
  intros H. destruct s as [|c s]; [simpl in H; lia|].
  unfold Number. destruct (Ascii.eqb c "-") eqn:E.
  - apply Ascii.eqb_eq in E. subst c. cbn [count_char] in H.
    change (Ascii.eqb "-" ".") with false in H.
    rewrite parse_unsigned_two_dots by (simpl in H; lia). done.
  - by apply parse_unsigned_two_dots.
Qed.

Lemma toNum_two_dots_NaN (s : string) :
  (2 <= count_char "." s)%nat -> toNum (VStr s) = NaN.
Proof.
  intros H. rewrite toNum_VStr by (intros ->; simpl in H; lia).
  apply Number_two_dots. by rewrite count_dots_strip.
Qed.

(** X3.  A text with two dots or more is not a number: [toNum] reads it
    as [NaN] and [formatCO] prints it as the empty text.  An amount already
    written with thousands separators ("1.234.567") is such a text. *)
Theorem toNum_rejects_two_dots (rt : Runtime) (s : string) :
  (2 <= count_char "." s)%nat ->
  toNum (VStr s) = NaN /\ formatCO rt (VStr s) = "".
Proof.
  intros H. unfold formatCO. by rewrite (toNum_two_dots_NaN s H).
Qed.
End ParseMore.

(** ** Net present value, rate of return and payback on degenerate flows *)

Section NaNFlows.

Local Open Scope string_scope.

Local Open Scope list_scope.

Lemma add_NaN_r (x : num) : add x NaN = NaN.
Proof. by destruct x. Qed.

Lemma mul_NaN_r (x : num) : mul x NaN = NaN.
Proof. by destruct x. Qed.

Lemma sub_NaN_r (x : num) : sub x NaN = NaN.
Proof. by destruct x. Qed.

Lemma npv_from_NaN (rate : num) (flows : list num) (t : nat) :
  reduce_from (fun acc cf t => add acc (div cf (pow (add (ofZ 1) rate) t)))
    t flows NaN = NaN.
Proof. revert t. induction flows as [|x l IH]; intros t; [done|]. simpl. apply IH. Qed.

Lemma npv_from_NaN_flow (rate : num) (flows : list num) (t : nat) (acc : num) :
  In NaN flows -> reduce_from (fun acc cf t => add acc (div cf (pow (add (ofZ 1) rate) t)))
    t flows acc = NaN.
Proof.
  revert t acc. induction flows as [|x l IH]; intros t acc; [done|].
  intros [-> | Hin].
  - cbn [reduce_from div]. rewrite add_NaN_r.
    apply npv_from_NaN.
  - cbn [reduce_from]. by apply IH.
Qed.

Lemma npv_NaN_member (rate : num) (flows : list num) :
  In NaN flows -> npv rate flows = NaN.
Proof. apply npv_from_NaN_flow. Qed.

Lemma newton_NaN (flows : list num) (n : nat) (r : num) :
  npv r flows = NaN -> newton flows n r = None.
Proof.
  intros H. destruct n as [|n]; [done|]. cbn [newton]. rewrite H.
  destruct (lt _ _); [done|]. cbn [div]. by rewrite sub_NaN_r.
Qed.

Lemma bisect_NaN (flows : list num) (n : nat) (low high fLow fHigh : num) :
  (forall r, npv r flows = NaN) -> bisect flows n low high fLow fHigh = NaN.
Proof.
  intros H. revert low high fLow fHigh.
  induction n as [|n IH]; intros low high fLow fHigh; [done|].
  cbn [bisect]. rewrite H. cbn [abs lt]. rewrite mul_NaN_r. cbn [lt]. apply IH.
Qed.

Lemma irr_NaN_member (flows : list num) (guess : num) :
  In NaN flows -> irr flows guess = NaN.
Proof.
  intros H. unfold irr.
  rewrite newton_NaN by by apply npv_NaN_member.
  rewrite !npv_NaN_member by done. cbn [mul gt lt].
  apply bisect_NaN. intros r. by apply npv_NaN_member.
Qed.

(** X5.  One entry that is not a number spoils the whole cash flow: its net
    present value is [NaN] at every rate, and [irr] returns [NaN] from every
    starting point. *)
Theorem NaN_flow_gives_NaN (flows : list num) (rate guess : num) :
  In NaN flows -> npv rate flows = NaN /\ irr flows guess = NaN.
Proof. intros H. split; [by apply npv_NaN_member | by apply irr_NaN_member]. Qed.
End NaNFlows.

Section UndiscountedFlows.

Local Open Scope string_scope.

Local Open Scope list_scope.

Lemma pow_Fin_nonzero (q : Q) (t : nat) :
  ~ (q == 0)%Q -> exists p, pow (Fin q) t = Fin p /\ ~ (p == 0)%Q.
Proof.
  intros Hq. destruct t as [|t].
  - exists 1%Q. split; [done|]. lra.
  - exists (Qpower q (Z.of_nat (S t))). split; [done|].
    by apply Qpower_not_0.
Qed.



End UndiscountedFlows.

Section ZeroFlows.

Local Open Scope string_scope.

Local Open Scope list_scope.

Lemma div_zero_Fin (p : Q) : ~ (p == 0)%Q -> div (Fin 0) (Fin p) = Fin 0.
Proof.
  intros Hp. by rewrite div_Fin.
Qed.

Lemma npv_zero_from (g : Q) (n t : nat) :
  ~ (g == -1)%Q ->
  reduce_from (fun acc cf t => add acc (div cf (pow (add (ofZ 1) (Fin g)) t)))
    t (repeat (ofZ 0) n) (Fin 0) = Fin 0.
Proof.
  intros Hg. revert t. induction n as [|n IH]; intros t; [done|].
  cbn [repeat reduce_from].
  change (add (ofZ 1) (Fin g)) with (Fin (Qred (inject_Z 1 + g))).
  destruct (pow_Fin_nonzero (Qred (inject_Z 1 + g)) t) as (p & Hp & Hp0).
  { rewrite Qred_correct. change (inject_Z 1) with 1%Q. lra. }
  rewrite Hp. change (ofZ 0) with (Fin 0). rewrite div_zero_Fin by done.
  change (add (Fin 0) (Fin 0)) with (Fin 0). apply IH.
Qed.

Lemma npv_zero (g : Q) (n : nat) :
  ~ (g == -1)%Q -> npv (Fin g) (repeat (ofZ 0) n) = Fin 0.
Proof. intros Hg. by apply npv_zero_from. Qed.

Lemma dNPV_zero_from (g : Q) (n t : nat) :
  ~ (g == -1)%Q ->
  reduce_from (fun acc cf t =>
            match t with
            | O => acc
            | _ => sub acc (div (mul (ofNat t) cf) (pow (add (ofZ 1) (Fin g)) (t + 1)))
            end) t (repeat (ofZ 0) n) (Fin 0) = Fin 0.
Proof.
  intros Hg. revert t. induction n as [|n IH]; intros t; [done|].
  cbn [repeat reduce_from]. destruct t as [|t]; [apply IH|].
  change (add (ofZ 1) (Fin g)) with (Fin (Qred (inject_Z 1 + g))).
  destruct (pow_Fin_nonzero (Qred (inject_Z 1 + g)) (S t + 1)) as (p & Hp & Hp0).
  { rewrite Qred_correct. change (inject_Z 1) with 1%Q. lra. }
  rewrite Hp.
  assert (Hm : mul (ofNat (S t)) (ofZ 0) = Fin 0).
  { reflexivity. }
  rewrite Hm, div_zero_Fin by done.
  change (sub (Fin 0) (Fin 0)) with (Fin 0). apply IH.
Qed.

Lemma newton_flat (flows : list num) (n : nat) (r : num) :
  lt (abs (dNPV flows r)) (dec 1 12) = true -> newton flows n r = None.
Proof. intros H. destruct n as [|n]; [done|]. cbn [newton]. by rewrite H. Qed.

Lemma bisect_first (flows : list num) (n : nat) (low high fLow fHigh : num) :
  lt (abs (npv (div (add low high) (ofZ 2)) flows)) tol = true ->
  bisect flows (S n) low high fLow fHigh = div (add low high) (ofZ 2).
Proof. intros H. cbn [bisect]. by rewrite H. Qed.

(** X6.  On a cash flow of zeros of any length, the empty flow included,
    [irr] does not report a failure: from every finite starting point other
    than -1 the Newton loop stops at once on a zero derivative, and the
    bisection returns the middle of its range, 2.05 (205%). *)
Theorem irr_zero_flows (n : nat) (g : Q) :
  ~ (g == -1)%Q -> irr (repeat (ofZ 0) n) (Fin g) = dec 205 2.
Proof.
  intros Hg. unfold irr.
  rewrite newton_flat.
  2: { unfold dNPV, reduce. change (ofZ 0) with (Fin 0) at 2.
       by rewrite dNPV_zero_from. }
  change (dec (-9) 1) with (Fin (-9 # 10)). change (ofZ 5) with (Fin 5).
  rewrite !npv_zero by (intros H; vm_compute in H; discriminate H).
  change (gt (mul (Fin 0) (Fin 0)) (ofZ 0)) with false. cbv iota.
  change 200%nat with (S 199). rewrite bisect_first; [reflexivity|].
  change (div (add (Fin (-9 # 10)) (Fin 5)) (ofZ 2)) with (Fin (41 # 20)).
  by rewrite npv_zero by (intros H; vm_compute in H; discriminate H).
Qed.
End ZeroFlows.

Section PaybackRange.

Local Open Scope string_scope.

Local Open Scope list_scope.

Lemma clamp_cases (x : num) :
  max (ofZ 0) (min (ofZ 1) x) = NaN \/
  exists c, max (ofZ 0) (min (ofZ 1) x) = Fin c /\ (0 <= c <= 1)%Q.
Proof.
  destruct x as [| | |q].
  - by left.
  - right. exists 1%Q. split; [reflexivity | lra].
  - right. exists 0%Q. split; [reflexivity | lra].
  - right. unfold min, ofZ. cbn [lt].
    destruct (Qle_bool (inject_Z 1) q) eqn:E1; cbn [negb].
    + exists 1%Q. split; [reflexivity | lra].
    + unfold max. cbn [lt]. destruct (Qle_bool q (inject_Z 0)) eqn:E0; cbn [negb].
      * exists 0%Q. split; [reflexivity | lra].
      * exists q. split; [reflexivity|].
        apply not_true_iff_false in E0, E1. rewrite Qle_bool_iff in E0, E1.
        change (inject_Z 0) with 0%Q in E0. change (inject_Z 1) with 1%Q in E1. lra.
Qed.

Lemma payback_from_range (flows : list num) (t : nat) (cum : num) :
  payback_from t cum flows = NaN \/
  exists q, payback_from t cum flows = Fin q /\
            (inject_Z (Z.of_nat t) - 1 <= q
             <= inject_Z (Z.of_nat t) + inject_Z (Z.of_nat (length flows)) - 1)%Q.
Proof.
  revert t cum. induction flows as [|ft rest IH]; intros t cum; [by left|].
  cbn [payback_from length].
  destruct (ge (add cum ft) (ofZ 0)).
  - match goal with |- context [max (ofZ 0) (min (ofZ 1) ?x)] =>
      destruct (clamp_cases x) as [-> | (c & -> & Hc)] end.
    + left. by destruct (sub (ofNat t) (ofZ 1)).
    + right. eexists. split; [reflexivity|].
      rewrite !Qred_correct. rewrite Nat2Z.inj_succ, <- Z.add_1_r, inject_Z_plus.
      pose proof (Nat2Z.is_nonneg (length rest)) as Hl.
      assert (0 <= inject_Z (Z.of_nat (length rest)))%Q.
      { change 0%Q with (inject_Z 0). by rewrite <- Zle_Qle. }
      change (inject_Z 1) with 1%Q. lra.
  - destruct (IH (S t) (add cum ft)) as [-> | (q & -> & Hq)]; [by left|].
    right. exists q. split; [done|].
    rewrite !Nat2Z.inj_succ, <- !Z.add_1_r, !inject_Z_plus in *.
    change (inject_Z 1) with 1%Q in *. lra.
Qed.

(** X7.  The payback period is [NaN] or a number between -1 and the last
    index of the flows: [t - 1] plus a fraction clamped to [[0, 1]], for an
    index [t] of the sequence. *)
Theorem paybackYears_range (flows : list num) :
  paybackYears flows = NaN \/
  exists q, paybackYears flows = Fin q /\
            (-1 <= q <= inject_Z (Z.of_nat (length flows)) - 1)%Q.
Proof.
  destruct (payback_from_range flows 0 (ofZ 0)) as [H | (q & H & Hq)]; [by left|].
  right. exists q. split; [done|]. change (inject_Z (Z.of_nat 0)) with 0%Q in Hq. lra.
Qed.
End PaybackRange.

Section SimplePayback.

Local Open Scope string_scope.

Local Open Scope list_scope.
Local Open Scope Q_scope.


End SimplePayback.

(** ** What the revisions of [computeFields] write

    Each lemma reads the result of one revision field by field, in
    terms of the numbers the function parses on its way. *)

Section FinancialShape.

Local Open Scope string_scope.

Import Financial.
Variable cfg : Config.
Variable rt : Runtime.

End FinancialShape.

Section ServerShape.

Local Open Scope string_scope.

Variable rt : Runtime.
Implicit Types (k : string) (v : value) (out : obj).


End ServerShape.

Section BasicShape.

Local Open Scope string_scope.

Variable rt : Runtime.
Implicit Types (k : string) (v : value) (out : obj).

End BasicShape.

Section FinancialSizing.

Local Open Scope string_scope.

Import Financial.
Variable cfg : Config.
Variable rt : Runtime.
Implicit Types (k : string) (v : value) (out : obj).

End FinancialSizing.

Section SizingTexts.

Local Open Scope string_scope.

Local Open Scope Q_scope.





End SizingTexts.

(** ** Fields the revisions leave alone *)

Section Frames.

Local Open Scope string_scope.

Variable cfg : Financial.Config.
Variable rt : Runtime.
Implicit Types (k : string) (v : value) (out : obj).




End Frames.

Section BasicInputWins.

Local Open Scope string_scope.

Variable rt : Runtime.
Implicit Types (k : string) (v : value) (out : obj).


End BasicInputWins.

(** ** The payments of [server.js] *)

Section Payments.

Local Open Scope string_scope.

Variable rt : Runtime.
Implicit Types (k : string) (v : value) (out : obj).







End Payments.

(** ** Sizing and investment *)

Section SizingTheorems.

Local Open Scope string_scope.

Variable cfg : Financial.Config.
Variable rt : Runtime.
Implicit Types (k : string) (v : value) (out : obj).


End SizingTheorems.

Section FromConsumption.

Local Open Scope string_scope.

Variable rt : Runtime.
Implicit Types (k : string) (v : value) (out : obj).



End FromConsumption.

(** ** The financial revision without its inputs *)

Section FinancialDegradation.

Local Open Scope string_scope.

Import Financial.
Variable cfg : Config.
Variable rt : Runtime.
Implicit Types (k : string) (v : value) (out : obj).









End FinancialDegradation.

Section TotalSavings.

Local Open Scope string_scope.

Import Financial.
Variable cfg : Config.
Variable rt : Runtime.
Local Open Scope Q_scope.




End TotalSavings.

(** ** Where the revisions agree *)

Section FinancialAgreement.

Local Open Scope string_scope.

Variable cfg : Financial.Config.
Variable rt : Runtime.
Implicit Types (k : string) (v : value) (out : obj).


End FinancialAgreement.

Section BasicAgreement.

Local Open Scope string_scope.

Variable cfg : Financial.Config.
Variable rt : Runtime.
Implicit Types (k : string) (v : value) (out : obj).

End BasicAgreement.

Section Revisions.

Local Open Scope string_scope.

Variable cfg : Financial.Config.
Variable rt : Runtime.
Implicit Types (k : string) (v : value) (out : obj).





End Revisions.

(** ** The request pipeline *)

Section Handler.

Local Open Scope string_scope.

Import Assembly.
Local Open Scope list_scope.

Variable page : Type.
Variable load : bytes -> option (list page).




Variable TPL_DIR : string.
Variable fs : string -> option bytes.
Variable renderUrlToPdfBuffer : PageUrl -> option bytes.
Variable rt : Runtime.


(** X25.  All or nothing.  The handler answers with its error status, and
    no document, when any of the three renders throws, and also when an
    annex file exists, is not empty and cannot be read by the library,
    whatever the renders gave. *)
Theorem render_cotizacion_fails (inputData : obj) :
  let data := Server.computeFields rt inputData in
  (renderUrlToPdfBuffer (urlIndex data) = None \/
   renderUrlToPdfBuffer (urlIndex2 data) = None \/
   renderUrlToPdfBuffer (urlIndex3 data) = None \/
   exists name x bs,
     name ∈ ["anexo1.pdf"; "anexo2.pdf"; "anexo3.pdf"] /\
     fs (template_path TPL_DIR name) = Some (x :: bs) /\ load (x :: bs) = None) ->
  render_cotizacion page load TPL_DIR fs renderUrlToPdfBuffer rt inputData = None.
Proof.
  intros data H. unfold render_cotizacion, merge_input. fold data.
  destruct (renderUrlToPdfBuffer (urlIndex data)) as [a|]; [|done].
  destruct (renderUrlToPdfBuffer (urlIndex2 data)) as [b|]; [|done].
  destruct (renderUrlToPdfBuffer (urlIndex3 data)) as [c|]; [|done].
  destruct H as [H | [H | [H | (name & x & bs & Hn & Hfs & Hl)]]]; try done.
  cbn [mbind option_bind].
  apply (mergePdfBuffers_unreadable page load _ x bs); [|done].
  unfold STATIC_PDFS_afterIndex2, STATIC_PDFS_afterIndex3.
  rewrite annex_two, annex_one.
  repeat (apply elem_of_cons in Hn as [-> | Hn]); [.. | by apply elem_of_nil in Hn].
  all: rewrite Hfs; cbn [Spec.present].
  all: rewrite !elem_of_app, !elem_of_cons; tauto.
Qed.
End Handler.

Section Addresses.

Local Open Scope string_scope.

Import Assembly.
Variable rt : Runtime.
Implicit Types (k : string) (v : value) (out : obj).





End Addresses.

(** ** The simplified revision *)

Section SimplifiedProps.

Local Open Scope string_scope.

Variable toLocaleFixed : nat -> num -> string.
Variable rt : Runtime.
Implicit Types (k : string) (v : value) (out : obj).

Example Simplified_formatCO_rounds :
  Simplified.formatCO Host.host (VStr "11640211.64") = "11.640.212".
Proof. by vm_compute. Qed.




End SimplifiedProps.

(** ** The further properties on concrete inputs *)

Section FurtherExamples.

Local Open Scope string_scope.

Import Assembly.

(** A price tag is read as the amount it shows. *)
Lemma toNum_ignores_decoration_witness :
  toNum (VStr "$ 1,234.50") = toNum (VStr "1234.50").
Proof.
  apply (toNum_ignores_decoration "$ 1,234.50"). intros H. discriminate H.
Defined.

(** An amount with thousands separators is not read. *)
Lemma toNum_rejects_two_dots_witness :
  toNum (VStr "1.234.567") = NaN /\ formatCO Host.host (VStr "1.234.567") = "".
Proof.
  apply (toNum_rejects_two_dots Host.host "1.234.567"). vm_compute. lia.
Defined.

Lemma NaN_flow_gives_NaN_witness :
  npv (dec 12 2) [ofZ (-100); NaN; ofZ 60] = NaN /\
  irr [ofZ (-100); NaN; ofZ 60] default_guess = NaN.
Proof.
  apply (NaN_flow_gives_NaN [ofZ (-100); NaN; ofZ 60]). right. left. reflexivity.
Defined.

(** The empty flow and four zeros, from the default starting point. *)
Lemma irr_zero_flows_witness :
  irr [] default_guess = dec 205 2 /\
  irr [ofZ 0; ofZ 0; ofZ 0; ofZ 0] default_guess = dec 205 2.
Proof.
  split; [apply (irr_zero_flows 0 (1 # 10)) | apply (irr_zero_flows 4 (1 # 10))];
    intros H; vm_compute in H; discriminate H.
Defined.

















(** A renderer that fails on the second page. *)
Lemma render_cotizacion_fails_witness :
  render_cotizacion Byte.byte Fixtures.page_per_byte "/app/templates" Fixtures.files
    (fun url => if String.eqb (filename url) "index2.html" then None
                else Some [Byte.x01])
    Host.host ∅
  = None.
Proof.
  pose proof (render_cotizacion_fails Byte.byte Fixtures.page_per_byte "/app/templates"
                Fixtures.files
                (fun url => if String.eqb (filename url) "index2.html" then None
                            else Some [Byte.x01])
                Host.host ∅) as H.
  cbv zeta in H. apply H. right. left. reflexivity.
Defined.




End FurtherExamples.

